(** * BasicUrlscanPy: the urlscan.io client of [base.py], embedded in Rocq

    The development follows [base.py] top to bottom:

    - [Py]: the Python values the client inspects (truthiness, [type(x) != dict],
      [in], [dict.get]) and [json.dumps] with the three ways it can end;
    - [Transport]: [urlscan_session], i.e. the [Retry] policy, the [HTTPAdapter]
      and the [Session] it is mounted on, with the retry loop the policy drives;
    - [Client]: [BaseUrlscan], as a state-and-exception monad over the object
      and the trace of what it did (log records, session use, requests).

    Theorems come after all definitions. *)

From Stdlib Require Import ZArith QArith Qminmax Ascii String.
From stdpp Require Import base strings list pretty.

#[local] Set Warnings "-register-all".
#[local] Open Scope Z_scope.
#[local] Open Scope string_scope.
#[local] Open Scope list_scope.

(** ** Python values *)

Module Py.

(** Keys a [dict] can hold. [KOther cls] is any other hashable key, such as a
    tuple: [json.dumps] refuses it. *)
Inductive pykey : Type :=
| KStr (s : string)
| KInt (n : Z)
| KBool (b : bool)
| KNone
| KOther (cls : string).

(** The values that reach the client. A [str] is a string of code points below
    256. [PFloat] carries the text [float.__repr__] gives and whether the number
    is non-zero. [PObj cls truth] is an object of any other class [cls], one
    [json.dumps] cannot encode ([set], [bytes], [datetime], ...), with its
    [bool(...)]. [PLoop up] stands, inside a container, for the container found
    [up] levels above it: after [d['self'] = d] the dict [d] is
    [PDict [(KStr "self", PLoop 0)]]. In nested positions [PList] also stands
    for a tuple and [PDict] for an instance of a subclass of [dict], which
    [json.dumps] treats alike; at top level, where [type(...)] is asked, they
    are [PObj]. *)
Inductive pyvalue : Type :=
| PNone
| PBool (b : bool)
| PInt (n : Z)
| PFloat (repr : string) (nonzero : bool)
| PStr (s : string)
| PList (items : list pyvalue)
| PDict (items : list (pykey * pyvalue))
| PObj (cls : string) (truth : bool)
| PLoop (up : nat).

#[global] Instance pykey_eq_dec : EqDecision pykey.
Proof. solve_decision. Defined.

(** [bool(v)], the test behind [if v] and [v and ...]. A container that holds a
    reference to itself is not empty. *)
Definition truthy (v : pyvalue) : bool :=
  match v with
  | PNone => false
  | PBool b => b
  | PInt n => negb (Z.eqb n 0)
  | PFloat _ nonzero => nonzero
  | PStr s => negb (String.eqb s "")
  | PList items => match items with [] => false | _ => true end
  | PDict items => match items with [] => false | _ => true end
  | PObj _ truth => truth
  | PLoop _ => true
  end.

(** [type(v) == dict]: the exact class, not [isinstance]. *)
Definition type_is_dict (v : pyvalue) : bool :=
  match v with
  | PDict _ => true
  | _ => false
  end.

(** [k in d] and [d.get(k)] for a string key [k], on the items of a dict in
    insertion order. *)
Fixpoint dict_get (k : string) (items : list (pykey * pyvalue)) : option pyvalue :=
  match items with
  | [] => None
  | (KStr s, v) :: rest => if String.eqb s k then Some v else dict_get k rest
  | _ :: rest => dict_get k rest
  end.

Definition dict_contains (k : string) (items : list (pykey * pyvalue)) : bool :=
  match dict_get k items with
  | Some _ => true
  | None => false
  end.

(** [d.get(k)] returns [None] for a missing key. *)
Definition get (k : string) (items : list (pykey * pyvalue)) : pyvalue :=
  match dict_get k items with
  | Some v => v
  | None => PNone
  end.

(** [v in l] for a list of strings [l]: [==] against each element; only a
    [str] equals a [str]. *)
Definition in_strings (v : pyvalue) (l : list string) : bool :=
  match v with
  | PStr s => existsb (String.eqb s) l
  | _ => false
  end.

(** *** [json.dumps] *)

Definition quote : ascii := Ascii.ascii_of_nat 34.
Definition backslash : ascii := Ascii.ascii_of_nat 92.

Definition hex_digit (n : N) : ascii :=
  Ascii.ascii_of_N (if (n <? 10)%N then 48 + n else 87 + n)%N.

(** [ensure_ascii] escaping: the short escapes, and [\u00xx] for every other
    code point outside [' '..'~']. *)
Definition escape_char (c : ascii) : string :=
  let n := Ascii.N_of_ascii c in
  if (n =? 34)%N then String backslash (String quote "")
  else if (n =? 92)%N then String backslash (String backslash "")
  else if (n =? 8)%N then "\b"
  else if (n =? 12)%N then "\f"
  else if (n =? 10)%N then "\n"
  else if (n =? 13)%N then "\r"
  else if (n =? 9)%N then "\t"
  else if ((32 <=? n) && (n <=? 126))%N then String c ""
  else "\u00" +:+ String (hex_digit (n / 16)) (String (hex_digit (n mod 16)) "").

Fixpoint escape (s : string) : string :=
  match s with
  | EmptyString => ""
  | String c rest => escape_char c +:+ escape rest
  end.

Definition encode_str (s : string) : string :=
  String quote (escape s) +:+ String quote "".

(** How a call of [json.dumps] ends: the text, a [TypeError] (a value or a key
    the encoder has no rule for), a [ValueError] (the encoder met a container
    it is already inside of, [Circular reference detected], or an [int] too
    long to be written in decimal), or a [RecursionError] (containers nested
    deeper than the interpreter has room for). *)
Inductive dumps_result : Type :=
| Dumped (text : string)
| DumpsTypeError (msg : string)
| DumpsValueError (msg : string)
| DumpsRecursionError (msg : string).

(** [sys.get_int_max_str_digits()] as the interpreter starts with it:
    [int.__repr__], which the encoder calls, raises [ValueError] for an [int]
    of more digits. *)
Definition INT_MAX_STR_DIGITS : N := 4300.

(** [sys.getrecursionlimit()] as the interpreter starts with it. [base.py]
    changes neither limit. The encoder takes one level for each container it
    enters; the frames in use when [json.dumps] is called, which take some of
    the room, are not counted here. *)
Definition RECURSION_LIMIT : N := 1000.

(** [int.__repr__(n)]. *)
Definition int_repr (n : Z) : dumps_result :=
  if (N.of_nat (String.length (pretty (Z.abs n))) <=? INT_MAX_STR_DIGITS)%N
  then Dumped (pretty n)
  else DumpsValueError
         "Exceeds the limit (4300 digits) for integer string conversion; use sys.set_int_max_str_digits() to increase the limit".

Definition encode_key (k : pykey) : dumps_result :=
  match k with
  | KStr s => Dumped (encode_str s)
  | KInt n =>
      match int_repr n with
      | Dumped text => Dumped (encode_str text)
      | err => err
      end
  | KBool true => Dumped (encode_str "true")
  | KBool false => Dumped (encode_str "false")
  | KNone => Dumped (encode_str "null")
  | KOther cls =>
      DumpsTypeError ("keys must be str, int, float, bool or None, not " +:+ cls)
  end.

(** Joins the pieces of a container with [", "]. *)
Definition join2 (piece : string) (rest : string) : string :=
  if String.eqb rest "" then piece else piece +:+ ", " +:+ rest.

Definition too_deep : dumps_result :=
  DumpsRecursionError "maximum recursion depth exceeded while encoding a JSON object".

(** The encoder walks a container left to right and stops at the first item it
    cannot encode. [room] is the number of containers it may still enter, one
    inside the other: it takes a level on entering a list or a dict, before it
    looks whether it is already inside that container. *)
Fixpoint json_encode (room : N) (v : pyvalue) : dumps_result :=
  match v with
  | PNone => Dumped "null"
  | PBool true => Dumped "true"
  | PBool false => Dumped "false"
  | PInt n => int_repr n
  | PFloat repr _ => Dumped repr
  | PStr s => Dumped (encode_str s)
  | PList items =>
      match room with
      | N0 => too_deep
      | Npos _ =>
          let room' := N.pred room in
          let fix go (l : list pyvalue) : dumps_result :=
            match l with
            | [] => Dumped ""
            | x :: rest =>
                match json_encode room' x with
                | Dumped t =>
                    match go rest with
                    | Dumped ts => Dumped (join2 t ts)
                    | err => err
                    end
                | err => err
                end
            end in
          match go items with
          | Dumped body => Dumped ("[" +:+ body +:+ "]")
          | err => err
          end
      end
  | PDict items =>
      match room with
      | N0 => too_deep
      | Npos _ =>
          let room' := N.pred room in
          let fix go (l : list (pykey * pyvalue)) : dumps_result :=
            match l with
            | [] => Dumped ""
            | (k, x) :: rest =>
                match encode_key k with
                | Dumped kt =>
                    match json_encode room' x with
                    | Dumped t =>
                        match go rest with
                        | Dumped ts => Dumped (join2 (kt +:+ ": " +:+ t) ts)
                        | err => err
                        end
                    | err => err
                    end
                | err => err
                end
            end in
          match go items with
          | Dumped body => Dumped ("{" +:+ body +:+ "}")
          | err => err
          end
      end
  | PObj cls _ =>
      DumpsTypeError ("Object of type " +:+ cls +:+ " is not JSON serializable")
  | PLoop _ =>
      match room with
      | N0 => too_deep
      | Npos _ => DumpsValueError "Circular reference detected"
      end
  end.

Definition json_dumps (v : pyvalue) : dumps_result := json_encode RECURSION_LIMIT v.

End Py.

Import Py.

(** ** Exceptions *)

Module Exn.

(** The classes of [requests.exceptions] under [RequestException] that the
    transport raises. *)
Inductive requests_error : Type :=
| ConnectionError
| ConnectTimeout
| ReadTimeout
| RetryError
| TooManyRedirects
| SSLError
| ProxyError
| InvalidSchema
| InvalidURL
| ChunkedEncodingError.

(** What can be raised through the client. [UrlscanInvalidPayload] of
    [exceptions.py] derives from [Exception] directly: it is neither a
    [ValueError] nor a [RequestException]. [OtherException cls msg] is an
    exception of any class unrelated to these three. *)
Inductive exception : Type :=
| ValueError (msg : string)
| UrlscanInvalidPayload (msg : string)
| RequestException (kind : requests_error) (msg : string)
| OtherException (cls msg : string).

(** [isinstance(e, requests.RequestException)], the test of the [except]
    clause of [execute]. *)
Definition is_RequestException (e : exception) : bool :=
  match e with
  | RequestException _ _ => true
  | _ => false
  end.

Definition is_ValueError (e : exception) : bool :=
  match e with
  | ValueError _ => true
  | _ => false
  end.

Definition is_UrlscanInvalidPayload (e : exception) : bool :=
  match e with
  | UrlscanInvalidPayload _ => true
  | _ => false
  end.

(** [str(e)], as interpolated by an f-string. *)
Definition exn_str (e : exception) : string :=
  match e with
  | ValueError msg => msg
  | UrlscanInvalidPayload msg => msg
  | RequestException _ msg => msg
  | OtherException _ msg => msg
  end.

End Exn.

Import Exn.

(** ** The transport factory *)

Module Transport.

(** A response as the client sees it. [retry_after] is the [Retry-After] header
    as urllib3 reads it, a number of seconds that is not negative, when the
    server sent one. *)
Record Response : Type := mkResponse {
  status_code : Z;
  retry_after : option Q;
  content : string
}.

(** What [Session.request] does: it returns a response or raises. *)
Inductive reply : Type :=
| Responded (r : Response)
| Failed (e : exception).

(** [urllib3.util.retry.Retry], with the options [urlscan_session] sets and
    those of the constructor's defaults that decide whether a retry happens. *)
Record Retry : Type := mkRetry {
  total : nat;
  backoff_factor : Q;
  status_forcelist : list Z;
  allowed_methods : list string;
  respect_retry_after_header : bool;
  raise_on_status : bool;
  retry_reads : bool
}.

Definition DEFAULT_ALLOWED_METHODS : list string :=
  ["HEAD"; "GET"; "PUT"; "DELETE"; "OPTIONS"; "TRACE"].

Definition RETRY_AFTER_STATUS_CODES : list Z := [413; 429; 503].

Definition DEFAULT_BACKOFF_MAX : Q := 120.

(** [Retry(total=..., backoff_factor=..., status_forcelist=...)]. *)
Definition new_Retry (total : nat) (backoff_factor : Q) (status_forcelist : list Z) : Retry :=
  {| total := total;
     backoff_factor := backoff_factor;
     status_forcelist := status_forcelist;
     allowed_methods := DEFAULT_ALLOWED_METHODS;
     respect_retry_after_header := true;
     raise_on_status := true;
     retry_reads := true |}.

Definition with_total (r : Retry) (n : nat) : Retry :=
  {| total := n;
     backoff_factor := backoff_factor r;
     status_forcelist := status_forcelist r;
     allowed_methods := allowed_methods r;
     respect_retry_after_header := respect_retry_after_header r;
     raise_on_status := raise_on_status r;
     retry_reads := retry_reads r |}.

Definition upper_char (c : ascii) : ascii :=
  let n := Ascii.nat_of_ascii c in
  if ((97 <=? n) && (n <=? 122))%nat then Ascii.ascii_of_nat (n - 32) else c.

Definition lower_char (c : ascii) : ascii :=
  let n := Ascii.nat_of_ascii c in
  if ((65 <=? n) && (n <=? 90))%nat then Ascii.ascii_of_nat (n + 32) else c.

Fixpoint map_string (f : ascii -> ascii) (s : string) : string :=
  match s with
  | EmptyString => EmptyString
  | String c rest => String (f c) (map_string f rest)
  end.

Definition upper : string -> string := map_string upper_char.
Definition lower : string -> string := map_string lower_char.

Definition mem_Z (x : Z) (l : list Z) : bool := existsb (Z.eqb x) l.
Definition mem_string (x : string) (l : list string) : bool := existsb (String.eqb x) l.

(** [Retry._is_method_retryable]. *)
Definition is_method_retryable (r : Retry) (method : string) : bool :=
  match allowed_methods r with
  | [] => true
  | ms => mem_string (upper method) ms
  end.

(** [Retry.is_retry(method, status_code, has_retry_after)]. *)
Definition is_retry (r : Retry) (method : string) (status : Z) (has_retry_after : bool) : bool :=
  if negb (is_method_retryable r method) then false
  else if match status_forcelist r with [] => false | l => mem_Z status l end then true
  else negb (Nat.eqb (total r) 0)
       && respect_retry_after_header r
       && has_retry_after
       && mem_Z status RETRY_AFTER_STATUS_CODES.

(** [Retry.get_backoff_time] once [errors] consecutive attempts have failed:
    never negative (a backoff that is not positive is not slept) and never
    above [DEFAULT_BACKOFF_MAX]. *)
Definition get_backoff_time (r : Retry) (errors : nat) : Q :=
  if (errors <=? 1)%nat then 0%Q
  else Qmax 0 (Qmin DEFAULT_BACKOFF_MAX
                 (backoff_factor r * inject_Z (2 ^ Z.of_nat (errors - 1))))%Q.

(** [Retry.sleep(response)]: a non-zero [Retry-After] is honoured, otherwise
    the backoff time is slept. The result is the delay in seconds. *)
Definition sleep_time (r : Retry) (errors : nat) (response : option Response) : Q :=
  match response with
  | Some resp =>
      match retry_after resp with
      | Some secs =>
          if respect_retry_after_header r && negb (Qeq_bool secs 0)
          then secs else get_backoff_time r errors
      | None => get_backoff_time r errors
      end
  | None => get_backoff_time r errors
  end.

(** What one attempt on the wire yields. *)
Inductive wire_reply : Type :=
| WResponse (r : Response)
| WConnectError
| WReadTimeout.

(** The outcome of sending one request through an adapter: what
    [Session.request] answers, how many attempts went on the wire and the
    delays slept between them. *)
Record sent : Type := mkSent {
  answer : reply;
  attempts : nat;
  sleeps : list Q
}.

Definition has_retry_after (r : Response) : bool :=
  match retry_after r with
  | Some _ => true
  | None => false
  end.

(** The retry loop of [HTTPConnectionPool.urlopen] as [HTTPAdapter.send] runs
    it, with the exceptions [send] turns urllib3's into. A read error is raised
    at once when reads are not retried ([read=False]) or the method is not an
    allowed one. [left] is the [total]
    of the [Retry] object of the attempt at hand; [Retry.increment] takes one
    off and raises [MaxRetryError] when that goes below zero. [server n] is
    what the [n]-th attempt meets on the wire. *)
Fixpoint urlopen_from (left : nat) (retries : Retry) (method : string)
    (server : nat -> wire_reply) (n : nat) (slept : list Q) : sent :=
  let now := with_total retries left in
  match server n with
  | WResponse r =>
      if is_retry now method (status_code r) (has_retry_after r) then
        match left with
        | O =>
            if raise_on_status now
            then mkSent (Failed (RequestException RetryError
                                   ("too many " +:+ pretty (status_code r) +:+ " error responses")))
                        (S n) slept
            else mkSent (Responded r) (S n) slept
        | S left' =>
            urlopen_from left' retries method server (S n)
              (slept ++ [sleep_time (with_total retries left') (S n) (Some r)])
        end
      else mkSent (Responded r) (S n) slept
  | WConnectError =>
      match left with
      | O => mkSent (Failed (RequestException ConnectionError "Max retries exceeded")) (S n) slept
      | S left' =>
          urlopen_from left' retries method server (S n)
            (slept ++ [sleep_time (with_total retries left') (S n) None])
      end
  | WReadTimeout =>
      if negb (retry_reads now) || negb (is_method_retryable now method)
      then mkSent (Failed (RequestException ReadTimeout "Read timed out.")) (S n) slept
      else
        match left with
        | O => mkSent (Failed (RequestException ConnectionError "Max retries exceeded")) (S n) slept
        | S left' =>
            urlopen_from left' retries method server (S n)
              (slept ++ [sleep_time (with_total retries left') (S n) None])
        end
  end.

Definition urlopen (retries : Retry) (method : string) (server : nat -> wire_reply) : sent :=
  urlopen_from (total retries) retries method server 0%nat [].

(** [requests.adapters.HTTPAdapter(max_retries=...)]. *)
Record HTTPAdapter : Type := mkHTTPAdapter {
  max_retries : Retry
}.

(** [HTTPAdapter()] has [max_retries = Retry(0, read=False)]. *)
Definition default_HTTPAdapter : HTTPAdapter :=
  {| max_retries :=
       {| total := 0;
          backoff_factor := 0;
          status_forcelist := [];
          allowed_methods := DEFAULT_ALLOWED_METHODS;
          respect_retry_after_header := true;
          raise_on_status := true;
          retry_reads := false |} |}.

(** [requests.Session]: the adapters in the order of its [OrderedDict]. *)
Record Session : Type := mkSession {
  adapters : list (string * HTTPAdapter)
}.

(** [requests.Session()] mounts a default adapter on both schemes. *)
Definition new_Session : Session :=
  {| adapters := [("https://", default_HTTPAdapter); ("http://", default_HTTPAdapter)] |}.

(** [d[prefix] = adapter] on the ordered dictionary. *)
Fixpoint assign (prefix : string) (a : HTTPAdapter) (l : list (string * HTTPAdapter))
    : list (string * HTTPAdapter) :=
  match l with
  | [] => [(prefix, a)]
  | (p, b) :: rest =>
      if String.eqb p prefix then (p, a) :: rest else (p, b) :: assign prefix a rest
  end.

(** [Session.mount]: assigns, then moves every shorter prefix to the end. *)
Definition mount (s : Session) (prefix : string) (a : HTTPAdapter) : Session :=
  let l := assign prefix a (adapters s) in
  let shorter (pa : string * HTTPAdapter) : bool :=
    (String.length (fst pa) <? String.length prefix)%nat in
  {| adapters := List.filter (fun pa => negb (shorter pa)) l ++ List.filter shorter l |}.

(** [Session.get_adapter]: the first mounted prefix the lower-cased URL starts
    with; [InvalidSchema] when there is none. *)
Fixpoint find_adapter (url : string) (l : list (string * HTTPAdapter)) : option HTTPAdapter :=
  match l with
  | [] => None
  | (p, a) :: rest =>
      if String.prefix (lower p) (lower url) then Some a else find_adapter url rest
  end.

Definition get_adapter (s : Session) (url : string) : option HTTPAdapter :=
  find_adapter url (adapters s).

(** [Session.request] for a well-formed URL, against a server that does not
    redirect: the adapter is looked up and sends the request. *)
Definition session_request (s : Session) (server : nat -> wire_reply)
    (method url : string) : sent :=
  match get_adapter s url with
  | Some a => urlopen (max_retries a) method server
  | None =>
      mkSent (Failed (RequestException InvalidSchema
                        ("No connection adapters were found for " +:+ url)))
             0 []
  end.

(** *** [urlscan_session] *)

Definition STATUSES : list Z := [429; 500; 502; 503; 504].

Definition urlscan_session (retries : nat) (backoff : Q) : Session :=
  let strategy := new_Retry retries backoff STATUSES in
  let adapter := mkHTTPAdapter strategy in
  let session := new_Session in
  mount session "https://" adapter.

End Transport.

Import Transport.

(** ** The client *)

Module Client.

Inductive level : Type := WARNING | ERROR.

(** The arguments of one call of [Session.request]. *)
Record Request : Type := mkRequest {
  req_method : string;
  req_url : string;
  req_headers : list (string * pyvalue);
  req_data : pyvalue;
  req_params : pyvalue
}.

(** What the client does that can be seen from outside, in order. Leaving the
    [with] block of a [requests.Session] calls [Session.close()]. *)
Inductive event : Type :=
| Logged (lvl : level) (msg : string)
| SessionCreated (s : Session)
| SessionEntered (s : Session)
| RequestIssued (s : Session) (r : Request)
| SessionClosed (s : Session).

(** The attributes of a [BaseUrlscan] object. *)
Record BaseUrlscan : Type := mkBaseUrlscan {
  headers : list (string * pyvalue);
  session : Session
}.

Record state : Type := mkState {
  self : BaseUrlscan;
  trace : list event
}.

Inductive outcome (A : Type) : Type :=
| Returned (a : A)
| Raised (e : exception).

Arguments Returned {A} a.
Arguments Raised {A} e.

(** A method body: from the state before to its outcome and the state after. *)
Definition M (A : Type) : Type := state -> outcome A * state.

Definition ret {A : Type} (a : A) : M A := fun st => (Returned a, st).

Definition raise {A : Type} (e : exception) : M A := fun st => (Raised e, st).

Definition bind {A B : Type} (c : M A) (k : A -> M B) : M B :=
  fun st =>
    match c st with
    | (Returned a, st') => k a st'
    | (Raised e, st') => (Raised e, st')
    end.

Notation "x <- c ;; k" := (bind c (fun x => k))
  (at level 100, c at next level, right associativity).
Notation "c ;; k" := (bind c (fun _ => k))
  (at level 100, right associativity).

Definition emit (ev : event) : M unit :=
  fun st => (Returned tt, {| self := self st; trace := trace st ++ [ev] |}).

Definition get_self : M BaseUrlscan := fun st => (Returned (self st), st).

(** [if cond: raise e]. *)
Definition raise_if (cond : bool) (e : exception) : M unit :=
  if cond then raise e else ret tt.

(** [try: body except requests.RequestException as e: handler e]. *)
Definition try_except_RequestException {A : Type} (body : M A) (handler : exception -> M A) : M A :=
  fun st =>
    match body st with
    | (Raised e, st') =>
        if is_RequestException e then handler e st' else (Raised e, st')
    | done => done
    end.

(** [with self.session as s: body s]. [Session.__enter__] returns the session
    itself; [Session.__exit__] closes it however the body ends. *)
Definition with_session {A : Type} (body : Session -> M A) : M A :=
  fun st =>
    let s := session (self st) in
    match (emit (SessionEntered s) ;; body s) st with
    | (r, st') => (r, {| self := self st'; trace := trace st' ++ [SessionClosed s] |})
    end.

Definition logger_warning (msg : string) : M unit := emit (Logged WARNING msg).
Definition logger_error (msg : string) : M unit := emit (Logged ERROR msg).

Definition URLSCAN_DOMAIN : string := "urlscan.io".
Definition QUOTA_URL : string := "https://" +:+ URLSCAN_DOMAIN +:+ "/user/quotas/".
Definition API_URL : string := "https://" +:+ URLSCAN_DOMAIN +:+ "/api/v1".
Definition DOM_URL : string := "https://" +:+ URLSCAN_DOMAIN +:+ "/dom".
Definition SCREENSHOT_URL : string := "https://" +:+ URLSCAN_DOMAIN +:+ "/screenshots".
Definition RESPONSE_URL : string := "https://" +:+ URLSCAN_DOMAIN +:+ "/responses".

Definition VISIBILITIES : list string := ["public"; "private"; "unlisted"].

(** [str(VISIBILITIES)]. *)
Definition VISIBILITIES_repr : string := "['public', 'private', 'unlisted']".

(** [BaseUrlscan.__init__], from the trace so far to the new object and the
    trace after. *)
Definition init (api_key user_agent : pyvalue) (retries : nat) (backoff : Q)
    (before : list event) : state :=
  let t1 :=
    if negb (truthy api_key)
    then before ++ [Logged WARNING
           "No API key provided, this may limit some actions you can do with urslcan.io"]
    else before in
  let '(user_agent, t2) :=
    if negb (truthy user_agent)
    then (PStr "BasicUrlscanPy/v1",
          t1 ++ [Logged WARNING
            ("No user agent provided, using default user agent: " +:+ "BasicUrlscanPy/v1"
             +:+ ". It is recommended to set a custom user agent")])
    else (user_agent, t1) in
  let headers0 := [("Content-Type", PStr "application/json"); ("User-Agent", user_agent)] in
  let headers1 := if truthy api_key then headers0 ++ [("API-Key", api_key)] else headers0 in
  let s := urlscan_session retries backoff in
  {| self := {| headers := headers1; session := s |};
     trace := t2 ++ [SessionCreated s] |}.

Section Methods.

(** What [Session.request] answers, for each session and each request. *)
Variable send : Session -> Request -> reply.

(** [s.request(method=..., url=..., headers=..., data=..., params=...)]. *)
Definition request (s : Session) (r : Request) : M Response :=
  emit (RequestIssued s r) ;;
  match send s r with
  | Responded resp => ret resp
  | Failed e => raise e
  end.

Definition execute (method url : string) (payload params : pyvalue) : M (option Response) :=
  raise_if (truthy payload && negb (type_is_dict payload))
    (ValueError "Payload must be a dictionary") ;;
  payload <- (if truthy payload then
                match json_dumps payload with
                | Dumped text => ret (PStr text)
                | DumpsTypeError e =>
                    raise (UrlscanInvalidPayload ("Failed to convert payload to JSON: " +:+ e))
                | DumpsValueError e => raise (ValueError e)
                | DumpsRecursionError e => raise (OtherException "RecursionError" e)
                end
              else ret payload) ;;
  raise_if (truthy params && negb (type_is_dict params))
    (ValueError "Params must be a dictionary") ;;
  this <- get_self ;;
  with_session (fun urlscan_request =>
    try_except_RequestException
      (response <- request urlscan_request
                     {| req_method := method;
                        req_url := url;
                        req_headers := headers this;
                        req_data := payload;
                        req_params := params |} ;;
       ret (Some response))
      (fun e =>
         logger_error ("Request of " +:+ url +:+ " failed with the following error: "
                       +:+ exn_str e) ;;
         ret None)).

Definition get_quotas : M (option Response) :=
  execute "GET" QUOTA_URL PNone PNone.

Definition get_result (result_uuid : string) : M (option Response) :=
  execute "GET" (API_URL +:+ "/result/" +:+ result_uuid) PNone PNone.

Definition get_screenshot (result_uuid : string) : M (option Response) :=
  execute "GET" (SCREENSHOT_URL +:+ "/" +:+ result_uuid) PNone PNone.

Definition get_dom (result_uuid : string) : M (option Response) :=
  execute "GET" (DOM_URL +:+ "/" +:+ result_uuid) PNone PNone.

Definition get_response (response_sha256 : string) : M (option Response) :=
  execute "GET" (RESPONSE_URL +:+ "/" +:+ response_sha256) PNone PNone.

Definition get_scan_countries : M (option Response) :=
  execute "GET" (API_URL +:+ "/availableCountries/") PNone PNone.

(** After the [type(payload) != dict] test the payload is a dict, whose items
    the two later tests read. *)
Definition post_scan (payload : pyvalue) : M (option Response) :=
  match payload with
  | PDict items =>
      raise_if (negb (dict_contains "url" items))
        (ValueError "Payload must contain a URL to scan") ;;
      let visibility := get "visibility" items in
      raise_if (truthy visibility && negb (in_strings visibility VISIBILITIES))
        (ValueError ("Visibility must be one of " +:+ VISIBILITIES_repr)) ;;
      execute "POST" (API_URL +:+ "/scan/") payload PNone
  | _ => raise (ValueError "Payload must be a dictionary")
  end.

Definition get_search (params : pyvalue) : M (option Response) :=
  match params with
  | PDict items =>
      raise_if (negb (dict_contains "q" items))
        (ValueError "Params must contain a query to search for") ;;
      execute "GET" (API_URL +:+ "/search/") PNone params
  | _ => raise (ValueError "Params must be a dictionary")
  end.

End Methods.

(** *** Reading a trace *)

(** The requests of a trace, in order. *)
Fixpoint requests_of (t : list event) : list Request :=
  match t with
  | [] => []
  | RequestIssued _ r :: rest => r :: requests_of rest
  | _ :: rest => requests_of rest
  end.

(** How many times a trace closes session [s]. *)
Fixpoint closes_of (t : list event) : nat :=
  match t with
  | [] => 0
  | SessionClosed _ :: rest => S (closes_of rest)
  | _ :: rest => closes_of rest
  end.

(** How many sessions a trace creates. *)
Fixpoint creations_of (t : list event) : nat :=
  match t with
  | [] => 0
  | SessionCreated _ :: rest => S (creations_of rest)
  | _ :: rest => creations_of rest
  end.

(** The sessions a trace enters, sends through or closes, in order. *)
Fixpoint sessions_of (t : list event) : list Session :=
  match t with
  | [] => []
  | SessionEntered s :: rest => s :: sessions_of rest
  | RequestIssued s _ :: rest => s :: sessions_of rest
  | SessionClosed s :: rest => s :: sessions_of rest
  | _ :: rest => sessions_of rest
  end.

(** What a call appended to the trace. *)
Definition new_events (before after : state) : list event :=
  drop (length (trace before)) (trace after).

(** The body [requests] puts on the wire for a [data] argument: nothing for a
    falsy one, the text itself for a string. *)
Definition wire_body (data : pyvalue) : option string :=
  if truthy data then
    match data with
    | PStr text => Some text
    | _ => None
    end
  else None.

(** *** [execute] in two steps

    The checks [execute] makes before it touches the session, with the [data]
    argument they leave, and the [with] block that follows. [execute_steps]
    below shows [execute] is the one after the other. *)

Definition checks (payload params : pyvalue) : outcome pyvalue :=
  if truthy payload && negb (type_is_dict payload)
  then Raised (ValueError "Payload must be a dictionary")
  else
    let data :=
      if truthy payload then
        match json_dumps payload with
        | Dumped text => Returned (PStr text)
        | DumpsTypeError e =>
            Raised (UrlscanInvalidPayload ("Failed to convert payload to JSON: " +:+ e))
        | DumpsValueError e => Raised (ValueError e)
        | DumpsRecursionError e => Raised (OtherException "RecursionError" e)
        end
      else Returned payload in
    match data with
    | Returned d =>
        if truthy params && negb (type_is_dict params)
        then Raised (ValueError "Params must be a dictionary")
        else Returned d
    | Raised e => Raised e
    end.

Definition failure_message (url : string) (e : exception) : string :=
  "Request of " +:+ url +:+ " failed with the following error: " +:+ exn_str e.

Definition perform (send : Session -> Request -> reply) (r : Request) (st : state)
    : outcome (option Response) * state :=
  let s := session (self st) in
  match send s r with
  | Responded resp =>
      (Returned (Some resp),
       {| self := self st;
          trace := trace st ++ [SessionEntered s; RequestIssued s r; SessionClosed s] |})
  | Failed e =>
      if is_RequestException e
      then (Returned None,
            {| self := self st;
               trace := trace st ++ [SessionEntered s; RequestIssued s r;
                                     Logged ERROR (failure_message (req_url r) e);
                                     SessionClosed s] |})
      else (Raised e,
            {| self := self st;
               trace := trace st ++ [SessionEntered s; RequestIssued s r; SessionClosed s] |})
  end.

End Client.

Import Client.

(** ** Servers and clients to run the code on *)

Module Scenario.

(** A server that answers every attempt with the same status. *)
Definition always (status : Z) : nat -> wire_reply :=
  fun _ => WResponse (mkResponse status None "").


(** A server no connection reaches. *)
Definition unreachable : nat -> wire_reply :=
  fun _ => WConnectError.

(** [Session.request] when every request meets [server]. *)
Definition through (server : nat -> wire_reply) : Session -> Request -> reply :=
  fun s r => answer (session_request s server (req_method r) (req_url r)).

(** [BaseUrlscan(api_key='k3y', user_agent='BobSecurityScanner/v1', retries=2)]. *)
Definition bob : state :=
  init (PStr "k3y") (PStr "BobSecurityScanner/v1") 2 1 [].

(** [BaseUrlscan()]. *)
Definition anonymous : state :=
  init PNone PNone 5 1 [].

(** [d = {'url': 'http://example.com'}; d['self'] = d]. *)
Definition circular : pyvalue :=
  PDict [(KStr "url", PStr "http://example.com"); (KStr "self", PLoop 0)].

End Scenario.

Import Scenario.

(** ** The operations of the client, and more ways to read a run *)

Module Operations.

(** The log records of a trace, in order. *)
Fixpoint logs_of (t : list event) : list (level * string) :=
  match t with
  | [] => []
  | Logged lvl msg :: rest => (lvl, msg) :: logs_of rest
  | _ :: rest => logs_of rest
  end.

(** One call of a public method of [BaseUrlscan], with its arguments. *)
Inductive call : Type :=
| GetQuotas
| GetResult (result_uuid : string)
| GetScreenshot (result_uuid : string)
| GetDom (result_uuid : string)
| GetResponse (response_sha256 : string)
| GetScanCountries
| PostScan (payload : pyvalue)
| GetSearch (params : pyvalue).

Definition run (send : Session -> Request -> reply) (c : call) : M (option Response) :=
  match c with
  | GetQuotas => get_quotas send
  | GetResult result_uuid => get_result send result_uuid
  | GetScreenshot result_uuid => get_screenshot send result_uuid
  | GetDom result_uuid => get_dom send result_uuid
  | GetResponse response_sha256 => get_response send response_sha256
  | GetScanCountries => get_scan_countries send
  | PostScan payload => post_scan send payload
  | GetSearch params => get_search send params
  end.



(** The walk of [json_encode] over the items of a dict, and over those of a
    list, with room for [room] more containers. *)
Definition encode_items (room : N) : list (pykey * pyvalue) -> dumps_result :=
  fix go (l : list (pykey * pyvalue)) : dumps_result :=
    match l with
    | [] => Dumped ""
    | (k, x) :: rest =>
        match encode_key k with
        | Dumped kt =>
            match json_encode room x with
            | Dumped t =>
                match go rest with
                | Dumped ts => Dumped (join2 (kt +:+ ": " +:+ t) ts)
                | err => err
                end
            | err => err
            end
        | err => err
        end
    end.





(** A session whose [request] always raises [e]. *)
Definition failing (e : exception) : Session -> Request -> reply :=
  fun _ _ => Failed e.

End Operations.

Import Operations.

(** * Theorems *)

(** ** The steps of [execute] *)

Lemma state_eta (st : state) : {| self := self st; trace := trace st |} = st.
Proof. destruct st; reflexivity. Qed.

Lemma execute_steps send method url payload params st :
  execute send method url payload params st =
  match checks payload params with
  | Raised e => (Raised e, st)
  | Returned data =>
      perform send
        {| req_method := method; req_url := url; req_headers := headers (self st);
           req_data := data; req_params := params |} st
  end.
Proof.
  unfold execute, checks, perform, raise_if, bind.
  destruct (truthy payload && negb (type_is_dict payload)); [reflexivity|].
  cbn [ret].
  assert (Hwith : forall data,
    (this <- get_self;;
     with_session (fun urlscan_request =>
       try_except_RequestException
         (response <- request send urlscan_request
                        {| req_method := method; req_url := url;
                           req_headers := headers this; req_data := data;
                           req_params := params |};;
          ret (Some response))
         (fun e => logger_error ("Request of " +:+ url +:+
                     " failed with the following error: " +:+ exn_str e);;
                   ret None))) st =
    perform send {| req_method := method; req_url := url;
                    req_headers := headers (self st); req_data := data;
                    req_params := params |} st).
  { intros data.
    unfold perform, with_session, try_except_RequestException, request, bind,
      get_self, emit, logger_error, emit, ret, raise, failure_message; cbn.
    destruct (send (session (self st)) _) as [resp|e]; cbn.
    - rewrite <- !app_assoc. reflexivity.
    - destruct (is_RequestException e); cbn; rewrite <- !app_assoc; reflexivity. }
  destruct (truthy payload).
  - destruct (json_dumps payload) as [text|msg|msg|msg]; cbn; try reflexivity.
    destruct (truthy params && negb (type_is_dict params)); cbn; [reflexivity|].
    apply Hwith.
  - cbn. destruct (truthy params && negb (type_is_dict params)); cbn; [reflexivity|].
    apply Hwith.
Qed.


Lemma new_events_app st me t :
  new_events st {| self := me; trace := trace st ++ t |} = t.
Proof. unfold new_events; cbn. apply drop_app_length. Qed.

Lemma new_events_same st : new_events st st = [].
Proof. unfold new_events. apply drop_all. Qed.

(** What [perform] leaves: the object as it was, and three or four events. *)
Lemma perform_run send r st :
  exists t,
    snd (perform send r st) = {| self := self st; trace := trace st ++ t |}
    /\ requests_of t = [r]
    /\ closes_of t = 1%nat
    /\ creations_of t = 0%nat
    /\ sessions_of t = [session (self st); session (self st); session (self st)].
Proof.
  unfold perform.
  destruct (send (session (self st)) r) as [resp|e]; [|destruct (is_RequestException e)];
    eexists; cbn; repeat split; reflexivity.
Qed.

(** ** C1: transport failures *)

(** C1. Whenever a call of [execute] issues its request and [Session.request]
    raises a [RequestException] (of any class: [ConnectionError], the
    timeouts, [RetryError] when the retries are used up, ...), [execute] returns
    [None], having logged at level ERROR a message made of the URL and of the
    text of the exception; nothing is raised to the caller, and the object is
    as it was. *)
Theorem execute_transport_failure send method url payload params st res st' s r kind msg :
  execute send method url payload params st = (res, st') ->
  In (RequestIssued s r) (new_events st st') ->
  send s r = Failed (RequestException kind msg) ->
  res = Returned None
  /\ In (Logged ERROR ("Request of " +:+ url +:+ " failed with the following error: " +:+ msg))
        (new_events st st')
  /\ self st' = self st.
Proof.
  rewrite execute_steps.
  destruct (checks payload params) as [data|e].
  - unfold perform.
    set (req := {| req_method := method; req_url := url; req_headers := headers (self st);
                   req_data := data; req_params := params |}).
    destruct (send (session (self st)) req) as [resp|e] eqn:Hsend;
      [|destruct (is_RequestException e) eqn:Hreq];
      intros [= <- <-]; rewrite new_events_app; intros Hin Hfail;
      assert (Hsame : s = session (self st) /\ r = req)
        by (cbn in Hin; intuition congruence);
      destruct Hsame as [-> ->]; rewrite Hfail in Hsend.
    + discriminate Hsend.
    + injection Hsend as <-. cbn. auto 10.
    + injection Hsend as <-. discriminate Hreq.
  - intros [= <- <-]. rewrite new_events_same. intros [].
Qed.

(** A client with two retries asks for its quotas from a server that always
    answers 503: three attempts, [RetryError], and [get_quotas] returns [None]. *)
Lemma execute_transport_failure_witness :
  fst (execute (through (always 503)) "GET" QUOTA_URL PNone PNone bob) = Returned None
  /\ In (Logged ERROR ("Request of " +:+ QUOTA_URL +:+ " failed with the following error: "
                       +:+ "too many 503 error responses"))
        (new_events bob (snd (execute (through (always 503)) "GET" QUOTA_URL PNone PNone bob)))
  /\ self (snd (execute (through (always 503)) "GET" QUOTA_URL PNone PNone bob)) = self bob.
Proof.
  apply (execute_transport_failure (through (always 503)) "GET" QUOTA_URL PNone PNone bob
           _ _ (session (self bob))
           {| req_method := "GET"; req_url := QUOTA_URL; req_headers := headers (self bob);
              req_data := PNone; req_params := PNone |}
           RetryError "too many 503 error responses").
  - apply surjective_pairing.
  - vm_compute. right. left. reflexivity.
  - vm_compute. reflexivity.
Defined.

(** ** C2: the visibility of a scan *)

(** X18. A visibility that is truthy and not one of [VISIBILITIES] is refused
    before anything else happens. *)
Lemma post_scan_refuses_visibility send items st :
  dict_contains "url" items = true ->
  truthy (get "visibility" items) = true ->
  in_strings (get "visibility" items) VISIBILITIES = false ->
  post_scan send (PDict items) st =
  (Raised (ValueError "Visibility must be one of ['public', 'private', 'unlisted']"), st).
Proof.
  intros Hurl Htrue Hout. unfold post_scan, raise_if, bind.
  rewrite Hurl, Htrue, Hout. reflexivity.
Qed.

(** A visibility that is one of [VISIBILITIES] passes, and the payload goes to
    [execute] as a POST to the scan endpoint. *)
Lemma post_scan_accepts_visibility send items st :
  dict_contains "url" items = true ->
  in_strings (get "visibility" items) VISIBILITIES = true ->
  post_scan send (PDict items) st =
  execute send "POST" "https://urlscan.io/api/v1/scan/" (PDict items) PNone st.
Proof.
  intros Hurl Hin. unfold post_scan, raise_if, bind.
  rewrite Hurl, Hin, andb_false_r. reflexivity.
Qed.

(** C2, at the payload [{'url': 'http://example.com', 'visibility': ''}]. The
    empty string is not one of public, private, unlisted, yet [post_scan]
    raises nothing: the walrus test [if visibility := payload.get(...)] is
    false for it, the membership test is skipped, and the payload is sent. *)
Theorem post_scan_empty_visibility :
  let payload := PDict [(KStr "url", PStr "http://example.com");
                        (KStr "visibility", PStr "")] in
  let run := post_scan (through (always 200)) payload bob in
  in_strings (PStr "") VISIBILITIES = false
  /\ fst run = Returned (Some (mkResponse 200 None ""))
  /\ map req_data (requests_of (new_events bob (snd run)))
     = [PStr ("{" +:+ encode_str "url" +:+ ": " +:+ encode_str "http://example.com" +:+ ", "
              +:+ encode_str "visibility" +:+ ": " +:+ encode_str "" +:+ "}")].
Proof. vm_compute. repeat split; reflexivity. Qed.

(** ** C3: payloads that are not dictionaries *)

(** X17. [post_scan] refuses every payload whose type is not [dict], [None]
    and the falsy ones included. *)
Lemma post_scan_refuses_non_dict send payload st :
  type_is_dict payload = false ->
  post_scan send payload st = (Raised (ValueError "Payload must be a dictionary"), st).
Proof. destruct payload; cbn; try discriminate; reflexivity. Qed.

(** X19. [execute] refuses a payload whose type is not [dict] when it is
    truthy, before it looks at the params. *)
Lemma execute_refuses_truthy_non_dict send method url payload params st :
  truthy payload = true ->
  type_is_dict payload = false ->
  execute send method url payload params st
  = (Raised (ValueError "Payload must be a dictionary"), st).
Proof.
  intros Htrue Hdict. rewrite execute_steps. unfold checks.
  rewrite Htrue, Hdict. reflexivity.
Qed.

(** C3, at the payload [[]] (an empty list). It is present and is not a dict,
    yet [execute] raises nothing: [payload and type(payload) != dict] is false
    for a falsy payload, and the request is issued with the list as [data]. *)
Theorem execute_empty_list_payload :
  let run := execute (through (always 200)) "POST" "https://urlscan.io/api/v1/scan/"
               (PList []) PNone bob in
  type_is_dict (PList []) = false
  /\ fst run = Returned (Some (mkResponse 200 None ""))
  /\ map req_data (requests_of (new_events bob (snd run))) = [PList []].
Proof. vm_compute. repeat split; reflexivity. Qed.

(** The same for [0], [''] and [False]. *)
Lemma execute_falsy_payloads_sent :
  Forall (fun payload =>
            type_is_dict payload = false
            /\ fst (execute (through (always 200)) "POST" "https://urlscan.io/api/v1/scan/"
                      payload PNone bob) = Returned (Some (mkResponse 200 None "")))
         [PInt 0; PStr ""; PBool false; PObj "tuple" false].
Proof. repeat constructor. Qed.

(** ** C4: payloads [json.dumps] refuses *)

(** When [json.dumps] raises [TypeError] on a payload that passed the first
    test, [execute] raises [UrlscanInvalidPayload] and touches nothing. *)
Lemma execute_type_error send method url items params st msg :
  items <> [] ->
  json_dumps (PDict items) = DumpsTypeError msg ->
  execute send method url (PDict items) params st
  = (Raised (UrlscanInvalidPayload ("Failed to convert payload to JSON: " +:+ msg)), st).
Proof.
  intros Hne Hdumps. rewrite execute_steps. unfold checks.
  destruct items as [|kv rest]; [contradiction|].
  cbn [truthy type_is_dict negb andb]. rewrite Hdumps. reflexivity.
Qed.

(** A value of a class the encoder has no rule for, directly under the first
    key of the payload, is such a case. *)
Lemma execute_object_value send method url k cls truth rest params st :
  execute send method url (PDict ((KStr k, PObj cls truth) :: rest)) params st
  = (Raised (UrlscanInvalidPayload
               ("Failed to convert payload to JSON: Object of type " +:+ cls
                +:+ " is not JSON serializable")), st).
Proof. apply execute_type_error; [discriminate|reflexivity]. Qed.

(** C4, at the payload [d] with [d = {'url': 'http://example.com'}] and
    [d['self'] = d]. The value under ['self'] cannot be serialized; [json.dumps]
    raises [ValueError], which [except TypeError] does not catch, so [execute]
    raises that [ValueError] and not [UrlscanInvalidPayload]. Nothing is sent. *)
Theorem execute_circular_payload :
  let run := execute (through (always 200)) "POST" "https://urlscan.io/api/v1/scan/"
               circular PNone bob in
  json_dumps circular = DumpsValueError "Circular reference detected"
  /\ fst run = Raised (ValueError "Circular reference detected")
  /\ is_UrlscanInvalidPayload (ValueError "Circular reference detected") = false
  /\ snd run = bob.
Proof. vm_compute. repeat split; reflexivity. Qed.

(** ** C9: the params of a search *)

(** C9. When [params] is not a dict, or is a dict without the key ['q'],
    [get_search] raises a [ValueError] that says which of the two it is, and
    the state is as before: no session entered, no request issued. *)
Theorem get_search_validation send params st :
  type_is_dict params = false
  \/ (exists items, params = PDict items /\ dict_contains "q" items = false) ->
  get_search send params st
  = (Raised (ValueError (if type_is_dict params
                         then "Params must contain a query to search for"
                         else "Params must be a dictionary")), st).
Proof.
  intros [Hnot | (items & -> & Hq)].
  - destruct params; cbn in *; try discriminate; reflexivity.
  - unfold get_search, raise_if, bind. rewrite Hq. reflexivity.
Qed.

(** [get_search({'size': 10})] and [get_search('domain:example.com')]. *)
Lemma get_search_validation_witness :
  get_search (through (always 200)) (PDict [(KStr "size", PInt 10)]) bob
  = (Raised (ValueError "Params must contain a query to search for"), bob)
  /\ get_search (through (always 200)) (PStr "domain:example.com") bob
     = (Raised (ValueError "Params must be a dictionary"), bob).
Proof.
  split.
  - apply (get_search_validation (through (always 200)) (PDict [(KStr "size", PInt 10)]) bob).
    right. exists [(KStr "size", PInt 10)]. split; reflexivity.
  - apply (get_search_validation (through (always 200)) (PStr "domain:example.com") bob).
    left. reflexivity.
Defined.

(** ** C10: the empty dictionary as payload *)

(** C10. With [{}] as payload and params that pass their own test, [execute]
    goes straight to the request: the first test and the serialization are
    skipped ([{}] is falsy), so the outcome is that of the [with] block alone,
    with the empty dict itself, not the text [json.dumps] would give, as
    [data]. One request is issued and it has no body. *)
Theorem execute_empty_dict_payload send method url params st :
  truthy params && negb (type_is_dict params) = false ->
  let request := {| req_method := method; req_url := url; req_headers := headers (self st);
                    req_data := PDict []; req_params := params |} in
  checks (PDict []) params = Returned (PDict [])
  /\ execute send method url (PDict []) params st = perform send request st
  /\ requests_of (new_events st (snd (execute send method url (PDict []) params st)))
     = [request]
  /\ wire_body (req_data request) = None
  /\ json_dumps (PDict []) = Dumped "{}".
Proof.
  intros Hparams request.
  assert (Hchecks : checks (PDict []) params = Returned (PDict []))
    by (unfold checks; cbn; rewrite Hparams; reflexivity).
  assert (Hrun : execute send method url (PDict []) params st = perform send request st)
    by (rewrite execute_steps, Hchecks; reflexivity).
  repeat split; try assumption; try reflexivity.
  rewrite Hrun. destruct (perform_run send request st) as (t & -> & Hreq & _).
  rewrite new_events_app. exact Hreq.
Qed.

Lemma execute_empty_dict_payload_witness :
  execute (through (always 200)) "GET" QUOTA_URL (PDict []) PNone bob
  = perform (through (always 200))
      {| req_method := "GET"; req_url := QUOTA_URL; req_headers := headers (self bob);
         req_data := PDict []; req_params := PNone |} bob.
Proof.
  apply (execute_empty_dict_payload (through (always 200)) "GET" QUOTA_URL PNone bob).
  reflexivity.
Defined.

(** ** C6: fetching a result *)

(** C6. [get_result(s)] issues one request, a GET to
    [https://urlscan.io/api/v1/result/s] with the headers of the client, no data
    and no params, hence no body; when the session answers with a response,
    whatever its status code, that response is what [get_result] returns. *)
Theorem get_result_request send result_uuid st :
  let request := {| req_method := "GET";
                    req_url := "https://urlscan.io/api/v1/result/" +:+ result_uuid;
                    req_headers := headers (self st);
                    req_data := PNone;
                    req_params := PNone |} in
  let run := get_result send result_uuid st in
  API_URL = "https://urlscan.io/api/v1"
  /\ requests_of (new_events st (snd run)) = [request]
  /\ wire_body (req_data request) = None
  /\ fst run = match send (session (self st)) request with
               | Responded response => Returned (Some response)
               | Failed e => if is_RequestException e then Returned None else Raised e
               end.
Proof.
  intros request run.
  assert (Hrun : run = perform send request st).
  { subst run. unfold get_result. rewrite execute_steps. reflexivity. }
  rewrite Hrun. split; [reflexivity|]. split; [|split; [reflexivity|]].
  - destruct (perform_run send request st) as (t & -> & Hreq & _).
    rewrite new_events_app. exact Hreq.
  - unfold perform. destruct (send (session (self st)) request) as [resp|e];
      [reflexivity|]. destruct (is_RequestException e); reflexivity.
Qed.

Example get_result_abc_123 :
  let run := get_result (through (always 404)) "abc-123" anonymous in
  fst run = Returned (Some (mkResponse 404 None ""))
  /\ map req_url (requests_of (new_events anonymous (snd run)))
     = ["https://urlscan.io/api/v1/result/abc-123"]
  /\ map req_headers (requests_of (new_events anonymous (snd run)))
     = [[("Content-Type", PStr "application/json");
         ("User-Agent", PStr "BasicUrlscanPy/v1")]].
Proof. vm_compute. repeat split; reflexivity. Qed.

(** ** C5: the session *)

(** Every method leaves the object as it was. *)
Lemma execute_keeps_self send method url payload params st :
  self (snd (execute send method url payload params st)) = self st.
Proof.
  rewrite execute_steps. destruct (checks payload params) as [data|e]; [|reflexivity].
  destruct (perform_run send
              {| req_method := method; req_url := url; req_headers := headers (self st);
                 req_data := data; req_params := params |} st) as (t & -> & _).
  reflexivity.
Qed.

Lemma post_scan_keeps_self send payload st :
  self (snd (post_scan send payload st)) = self st.
Proof.
  destruct payload; try reflexivity.
  unfold post_scan, raise_if, bind.
  destruct (negb (dict_contains "url" items)); [reflexivity|]. cbn [ret].
  destruct (truthy (get "visibility" items) && _); [reflexivity|]. cbn [ret].
  apply execute_keeps_self.
Qed.

Lemma get_search_keeps_self send params st :
  self (snd (get_search send params st)) = self st.
Proof.
  destruct params; try reflexivity.
  unfold get_search, raise_if, bind.
  destruct (negb (dict_contains "q" items)); [reflexivity|]. cbn [ret].
  apply execute_keeps_self.
Qed.

(** What a call of [execute] appends to the trace. *)
Lemma execute_trace send method url payload params st :
  exists t,
    trace (snd (execute send method url payload params st)) = trace st ++ t
    /\ creations_of t = 0%nat
    /\ closes_of t = length (requests_of t)
    /\ (length (requests_of t) <= 1)%nat
    /\ Forall (fun s => s = session (self st)) (sessions_of t).
Proof.
  rewrite execute_steps. destruct (checks payload params) as [data|e].
  - destruct (perform_run send
                {| req_method := method; req_url := url; req_headers := headers (self st);
                   req_data := data; req_params := params |} st)
      as (t & -> & Hreq & Hclose & Hnew & Hsess).
    exists t. rewrite Hreq, Hclose, Hnew, Hsess. cbn.
    repeat split; auto.
  - exists []. cbn. rewrite app_nil_r. repeat split; auto.
Qed.

(** C5, as stated, fails on [get_quotas()]: the call enters the session with
    [with self.session as ...] and leaving that block closes the session. *)
Lemma get_quotas_closes_session :
  let run := get_quotas (through (always 200)) anonymous in
  fst run = Returned (Some (mkResponse 200 None ""))
  /\ closes_of (new_events anonymous (snd run)) = 1%nat
  /\ last (new_events anonymous (snd run)) = Some (SessionClosed (session (self anonymous))).
Proof. vm_compute. repeat split; reflexivity. Qed.

(** C5, amended. The constructor creates one session, the one
    [urlscan_session] builds, and keeps it in the object. No call of [execute]
    creates a session or replaces the one held: every event of the call names
    the session of the object, which is the same after the call. The call only
    appends to what was done before. When the checks refuse the call, it
    raises what they raise and leaves everything as it was: the session is not
    entered, not used and not closed. When the checks pass, the call enters
    the session of the object, issues its one request through it and then
    closes it, in this order, with nothing in between but the error logged for
    a failed request: the close comes last, on leaving the [with] block,
    whether the request was answered or failed. *)
Theorem session_created_once_closed_per_request
    api_key user_agent retries backoff before send method url payload params st :
  let made := init api_key user_agent retries backoff before in
  let after := snd (execute send method url payload params st) in
  let s := session (self st) in
  creations_of (trace made) = S (creations_of before)
  /\ session (self made) = urlscan_session retries backoff
  /\ session (self after) = session (self st)
  /\ creations_of (new_events st after) = 0%nat
  /\ Forall (fun s => s = session (self st)) (sessions_of (new_events st after))
  /\ closes_of (new_events st after) = length (requests_of (new_events st after))
  /\ (length (requests_of (new_events st after)) <= 1)%nat
  /\ trace after = trace st ++ new_events st after
  /\ match checks payload params with
     | Raised e =>
         execute send method url payload params st = (Raised e, st)
         /\ new_events st after = []
     | Returned data =>
         let r := {| req_method := method; req_url := url;
                     req_headers := headers (self st);
                     req_data := data; req_params := params |} in
         exists log,
           new_events st after
           = [SessionEntered s; RequestIssued s r] ++ log ++ [SessionClosed s]
           /\ match send s r with
              | Responded _ => log = []
              | Failed e =>
                  log = if is_RequestException e
                        then [Logged ERROR (failure_message url e)]
                        else []
              end
     end.
Proof.
  intros made after s.
  assert (Hcount : forall t u, creations_of (t ++ u) = (creations_of t + creations_of u)%nat).
  { induction t as [|ev t IH]; intros u; [reflexivity|].
    destruct ev; cbn; rewrite ?IH; reflexivity. }
  split; [|split; [|split]].
  - subst made. unfold init.
    destruct (truthy api_key), (truthy user_agent); cbn;
      rewrite ?Hcount; cbn; rewrite ?Hcount; cbn; lia.
  - subst made. unfold init. destruct (negb (truthy user_agent)); reflexivity.
  - subst after. rewrite execute_keeps_self. reflexivity.
  - assert (Hcounts :
      creations_of (new_events st after) = 0%nat
      /\ Forall (fun s => s = session (self st)) (sessions_of (new_events st after))
      /\ closes_of (new_events st after) = length (requests_of (new_events st after))
      /\ (length (requests_of (new_events st after)) <= 1)%nat).
    { subst after.
      destruct (execute_trace send method url payload params st)
        as (t & Htrace & Hnew & Hclose & Hone & Hsess).
      unfold new_events. rewrite Htrace, drop_app_length. auto. }
    destruct Hcounts as (Hnew & Hsess & Hclose & Hone).
    do 4 (split; [assumption|]).
    subst after. rewrite execute_steps.
    destruct (checks payload params) as [data|e].
    + unfold perform. fold s. cbn zeta.
      destruct (send s _) as [resp|e]; [|destruct (is_RequestException e)];
        unfold new_events; cbn [snd trace]; rewrite drop_app_length;
        (split; [reflexivity|]).
      * exists []. split; reflexivity.
      * exists [Logged ERROR (failure_message url e)]. split; reflexivity.
      * exists []. split; reflexivity.
    + unfold new_events. cbn [snd]. rewrite drop_all, app_nil_r.
      repeat split; reflexivity.
Qed.

(** ** C8: the headers *)

Lemma requests_of_app t u : requests_of (t ++ u) = requests_of t ++ requests_of u.
Proof.
  induction t as [|ev t IH]; [reflexivity|].
  destruct ev; cbn; rewrite ?IH; reflexivity.
Qed.

(** C8. The constructor builds the headers from its arguments: the content
    type, the user agent (the default one when none is given), and the API key
    exactly when one is given, that is when [api_key] is truthy. No call of
    [execute] changes the object, so the headers stay what the constructor
    made them, and every request [execute] issues carries all of them. *)
Theorem headers_fixed_at_construction
    api_key user_agent retries backoff before send method url payload params st :
  let made := self (init api_key user_agent retries backoff before) in
  let after := snd (execute send method url payload params st) in
  headers made
  = [("Content-Type", PStr "application/json");
     ("User-Agent", if truthy user_agent then user_agent else PStr "BasicUrlscanPy/v1")]
    ++ (if truthy api_key then [("API-Key", api_key)] else [])
  /\ (In "API-Key" (map fst (headers made)) <-> truthy api_key = true)
  /\ headers (self after) = headers (self st)
  /\ Forall (fun r => req_headers r = headers (self st)) (requests_of (new_events st after)).
Proof.
  intros made after.
  assert (Hmade : headers made
    = [("Content-Type", PStr "application/json");
       ("User-Agent", if truthy user_agent then user_agent else PStr "BasicUrlscanPy/v1")]
      ++ (if truthy api_key then [("API-Key", api_key)] else [])).
  { subst made. unfold init. destruct (truthy api_key), (truthy user_agent); reflexivity. }
  split; [exact Hmade|]. split; [|split].
  - rewrite Hmade. destruct (truthy api_key); cbn.
    + split; auto.
    + split; [|discriminate]. intros [H|[H|[]]]; discriminate H.
  - subst after. rewrite execute_keeps_self. reflexivity.
  - subst after. rewrite execute_steps.
    destruct (checks payload params) as [data|e].
    + destruct (perform_run send
                  {| req_method := method; req_url := url; req_headers := headers (self st);
                     req_data := data; req_params := params |} st) as (t & -> & Hreq & _).
      rewrite new_events_app, Hreq. repeat constructor.
    + cbn [snd]. rewrite new_events_same. constructor.
Qed.

Example headers_of_bob :
  headers (self bob)
  = [("Content-Type", PStr "application/json");
     ("User-Agent", PStr "BobSecurityScanner/v1");
     ("API-Key", PStr "k3y")].
Proof. reflexivity. Qed.

(** ** C7: the session [urlscan_session] builds *)

Lemma urlscan_session_adapters retries backoff :
  adapters (urlscan_session retries backoff)
  = [("https://", mkHTTPAdapter (new_Retry retries backoff STATUSES));
     ("http://", default_HTTPAdapter)].
Proof. reflexivity. Qed.

Lemma get_adapter_https retries backoff url :
  String.prefix "https://" (lower url) = true ->
  get_adapter (urlscan_session retries backoff) url
  = Some (mkHTTPAdapter (new_Retry retries backoff STATUSES)).
Proof.
  intros Hurl. unfold get_adapter. rewrite urlscan_session_adapters.
  cbn [find_adapter]. change (lower "https://") with "https://".
  rewrite Hurl. reflexivity.
Qed.








Example backoff_of_three_retries :
  session_request (urlscan_session 3 1) (always 503) "GET" "https://urlscan.io/user/quotas/"
  = {| answer := Failed (RequestException RetryError "too many 503 error responses");
       attempts := 4;
       sleeps := [0%Q; 2%Q; 4%Q] |}.
Proof. vm_compute. reflexivity. Qed.

(** The client end to end: with two retries, a search that never gets
    through is tried three times and comes back as [None]. *)
Example search_unreachable :
  let run := get_search (through unreachable)
               (PDict [(KStr "q", PStr "domain:example.com")]) bob in
  fst run = Returned None
  /\ attempts (session_request (session (self bob)) unreachable "GET"
                 "https://urlscan.io/api/v1/search/") = 3%nat.
Proof. vm_compute. split; reflexivity. Qed.

(** [post_scan({'url': 'http://example.com'})]: one POST to the scan endpoint
    whose data is the JSON text of the payload. *)
Example post_scan_example_com :
  let run := post_scan (through (always 200))
               (PDict [(KStr "url", PStr "http://example.com")]) anonymous in
  requests_of (new_events anonymous (snd run))
  = [{| req_method := "POST";
        req_url := "https://urlscan.io/api/v1/scan/";
        req_headers := [("Content-Type", PStr "application/json");
                        ("User-Agent", PStr "BasicUrlscanPy/v1")];
        req_data := PStr ("{" +:+ encode_str "url" +:+ ": "
                          +:+ encode_str "http://example.com" +:+ "}");
        req_params := PNone |}].
Proof. vm_compute. reflexivity. Qed.

(** * Further properties of the code *)

(** ** The constructor *)

(** X1. [__init__] never raises. It appends to the log a warning when no API
    key is given, then a warning when no user agent is given, and in every case
    creates the session [urlscan_session(retries, backoff)] once. *)
Theorem init_diagnostics api_key user_agent retries backoff before :
  trace (init api_key user_agent retries backoff before)
  = before
    ++ (if truthy api_key then []
        else [Logged WARNING
                "No API key provided, this may limit some actions you can do with urslcan.io"])
    ++ (if truthy user_agent then []
        else [Logged WARNING
                "No user agent provided, using default user agent: BasicUrlscanPy/v1. It is recommended to set a custom user agent"])
    ++ [SessionCreated (urlscan_session retries backoff)].
Proof.
  unfold init.
  destruct (truthy api_key), (truthy user_agent); cbn [negb];
    rewrite <- ?app_assoc; reflexivity.
Qed.

(** ** [execute]: the params, the request, the exceptions, the log *)

(** X2. When the payload passes (it is falsy, or a dict [json.dumps] encodes)
    and the params are truthy and not a dict, [execute] raises
    [ValueError('Params must be a dictionary')] and nothing else happens. *)
Theorem execute_refuses_params send method url payload params st :
  truthy params = true ->
  type_is_dict params = false ->
  truthy payload = false
  \/ (exists text, type_is_dict payload = true /\ json_dumps payload = Dumped text) ->
  execute send method url payload params st
  = (Raised (ValueError "Params must be a dictionary"), st).
Proof.
  intros Htrue Hdict Hpayload. rewrite execute_steps. unfold checks.
  rewrite Htrue, Hdict.
  destruct Hpayload as [Hfalsy | (text & Hpdict & Hdumps)].
  - rewrite Hfalsy. reflexivity.
  - rewrite Hpdict, andb_false_r, Hdumps.
    destruct (truthy payload); reflexivity.
Qed.

Lemma execute_refuses_params_witness :
  execute (through (always 200)) "GET" "https://urlscan.io/api/v1/search/" PNone
    (PStr "q=domain:example.com") bob
  = (Raised (ValueError "Params must be a dictionary"), bob).
Proof.
  apply (execute_refuses_params (through (always 200)) "GET"
           "https://urlscan.io/api/v1/search/" PNone (PStr "q=domain:example.com") bob).
  - reflexivity.
  - reflexivity.
  - left. reflexivity.
Defined.



Lemma json_dumps_dict items :
  json_dumps (PDict items)
  = match encode_items (N.pred RECURSION_LIMIT) items with
    | Dumped body => Dumped ("{" +:+ body +:+ "}")
    | err => err
    end.
Proof. reflexivity. Qed.

(** The text [json.dumps] gives for a dict is never empty. *)
Lemma dumps_dict_not_empty items text :
  json_dumps (PDict items) = Dumped text -> String.eqb text "" = false.
Proof.
  rewrite json_dumps_dict.
  destruct (encode_items _ items) as [body|msg|msg|msg]; intros [= <-]; reflexivity.
Qed.

(** X3. With a non-empty dict that [json.dumps] encodes as payload, and params
    that pass, [execute] issues one request, with the method, URL and params it
    was given, the headers of the client, and the JSON text as [data], which is
    the body sent. When the session answers, that answer is returned whatever
    its status. *)
Theorem execute_sends_json_text send method url items text params st :
  items <> [] ->
  json_dumps (PDict items) = Dumped text ->
  truthy params && negb (type_is_dict params) = false ->
  let request := {| req_method := method; req_url := url; req_headers := headers (self st);
                    req_data := PStr text; req_params := params |} in
  let run := execute send method url (PDict items) params st in
  requests_of (new_events st (snd run)) = [request]
  /\ wire_body (req_data request) = Some text
  /\ (forall response, send (session (self st)) request = Responded response ->
        fst run = Returned (Some response)).
Proof.
  intros Hne Hdumps Hparams request run.
  assert (Hrun : run = perform send request st).
  { subst run. rewrite execute_steps. unfold checks.
    destruct items as [|kv rest]; [contradiction|].
    cbn [truthy type_is_dict negb andb]. rewrite Hdumps, Hparams. reflexivity. }
  rewrite Hrun. split; [|split].
  - destruct (perform_run send request st) as (t & -> & Hreq & _).
    rewrite new_events_app. exact Hreq.
  - unfold wire_body. cbn [req_data request truthy].
    rewrite (dumps_dict_not_empty items text Hdumps). reflexivity.
  - intros response Hsend. unfold perform. rewrite Hsend. reflexivity.
Qed.

Lemma execute_sends_json_text_witness :
  let text := "{" +:+ encode_str "url" +:+ ": " +:+ encode_str "http://example.com" +:+ "}" in
  let request := {| req_method := "POST"; req_url := "https://urlscan.io/api/v1/scan/";
                    req_headers := headers (self bob);
                    req_data := PStr text; req_params := PNone |} in
  let run := execute (through (always 500)) "POST" "https://urlscan.io/api/v1/scan/"
               (PDict [(KStr "url", PStr "http://example.com")]) PNone bob in
  requests_of (new_events bob (snd run)) = [request]
  /\ wire_body (req_data request) = Some text
  /\ fst run = Returned (Some (mkResponse 500 None "")).
Proof.
  intros text request run.
  destruct (execute_sends_json_text (through (always 500)) "POST"
              "https://urlscan.io/api/v1/scan/"
              [(KStr "url", PStr "http://example.com")] text PNone bob)
    as (Hreq & Hbody & Hanswer).
  - discriminate.
  - vm_compute. reflexivity.
  - reflexivity.
  - split; [exact Hreq|]. split; [exact Hbody|].
    apply Hanswer. vm_compute. reflexivity.
Defined.

(** X4. An exception raised by the session that is not a [RequestException]
    is not caught: [execute] raises it to the caller, logs nothing, and the
    session is closed all the same on the way out of the [with] block. *)
Theorem execute_propagates_other_exceptions
    send method url payload params st res st' s r e :
  execute send method url payload params st = (res, st') ->
  In (RequestIssued s r) (new_events st st') ->
  send s r = Failed e ->
  is_RequestException e = false ->
  res = Raised e
  /\ logs_of (new_events st st') = []
  /\ last (new_events st st') = Some (SessionClosed (session (self st)))
  /\ self st' = self st.
Proof.
  rewrite execute_steps.
  destruct (checks payload params) as [data|e0].
  - unfold perform.
    set (req := {| req_method := method; req_url := url; req_headers := headers (self st);
                   req_data := data; req_params := params |}).
    destruct (send (session (self st)) req) as [resp|e1] eqn:Hsend;
      [|destruct (is_RequestException e1) eqn:Hreq];
      intros [= <- <-]; rewrite new_events_app; intros Hin Hfail Hother;
      assert (Hsame : s = session (self st) /\ r = req)
        by (cbn in Hin; intuition congruence);
      destruct Hsame as [-> ->]; rewrite Hfail in Hsend.
    + discriminate Hsend.
    + injection Hsend as <-. rewrite Hother in Hreq. discriminate Hreq.
    + injection Hsend as <-. cbn. auto.
  - intros [= <- <-]. rewrite new_events_same. intros [].
Qed.

Lemma execute_propagates_other_exceptions_witness :
  let e := OtherException "KeyboardInterrupt" "" in
  let run := execute (failing e) "GET" QUOTA_URL PNone PNone bob in
  fst run = Raised e
  /\ logs_of (new_events bob (snd run)) = []
  /\ last (new_events bob (snd run)) = Some (SessionClosed (session (self bob)))
  /\ self (snd run) = self bob.
Proof.
  intros e run.
  apply (execute_propagates_other_exceptions (failing e) "GET" QUOTA_URL PNone PNone bob
           _ _ (session (self bob))
           {| req_method := "GET"; req_url := QUOTA_URL; req_headers := headers (self bob);
              req_data := PNone; req_params := PNone |} e).
  - apply surjective_pairing.
  - vm_compute. right. left. reflexivity.
  - reflexivity.
  - reflexivity.
Defined.

(** X5. A call of [execute] logs at most one record. It logs one, at level
    ERROR, exactly when it issued its request and the session raised a
    [RequestException]; the call then returns [None]. Refusals by the checks,
    answers of any status and other exceptions leave the log alone. *)
Theorem execute_logs_request_failures_only send method url payload params st :
  let run := execute send method url payload params st in
  logs_of (new_events st (snd run)) = []
  \/ (exists r e,
        requests_of (new_events st (snd run)) = [r]
        /\ send (session (self st)) r = Failed e
        /\ is_RequestException e = true
        /\ logs_of (new_events st (snd run))
           = [(ERROR, "Request of " +:+ url +:+ " failed with the following error: "
                      +:+ exn_str e)]
        /\ fst run = Returned None).
Proof.
  intros run. subst run. rewrite execute_steps.
  destruct (checks payload params) as [data|e0].
  - unfold perform.
    set (req := {| req_method := method; req_url := url; req_headers := headers (self st);
                   req_data := data; req_params := params |}).
    destruct (send (session (self st)) req) as [resp|e] eqn:Hsend;
      [|destruct (is_RequestException e) eqn:Hreq];
      cbn [fst snd]; rewrite new_events_app.
    + left. reflexivity.
    + right. exists req, e. repeat split; auto.
    + left. reflexivity.
  - left. cbn [snd]. rewrite new_events_same. reflexivity.
Qed.

(** ** The operations *)

(** The fields of whatever request [execute] issues. *)
Lemma execute_request_fields send method url payload params st r :
  In r (requests_of (new_events st (snd (execute send method url payload params st)))) ->
  req_method r = method /\ req_url r = url
  /\ req_headers r = headers (self st) /\ req_params r = params
  /\ checks payload params = Returned (req_data r).
Proof.
  rewrite execute_steps. destruct (checks payload params) as [data|e].
  - destruct (perform_run send
                {| req_method := method; req_url := url; req_headers := headers (self st);
                   req_data := data; req_params := params |} st) as (t & -> & Hreq & _).
    rewrite new_events_app, Hreq. intros [<-|[]]. repeat split.
  - cbn [snd]. rewrite new_events_same. intros [].
Qed.

(** [post_scan] either refuses the payload, touching nothing, or hands it to
    [execute]. *)
Lemma post_scan_cases send payload st :
  (exists msg, post_scan send payload st = (Raised (ValueError msg), st))
  \/ (exists items,
        payload = PDict items
        /\ dict_contains "url" items = true
        /\ (truthy (get "visibility" items) = false
            \/ in_strings (get "visibility" items) VISIBILITIES = true)
        /\ post_scan send payload st
           = execute send "POST" "https://urlscan.io/api/v1/scan/" payload PNone st).
Proof.
  destruct payload; try (left; eexists; reflexivity).
  unfold post_scan, raise_if, bind.
  destruct (dict_contains "url" items) eqn:Hurl; [|left; eexists; reflexivity].
  cbn [negb ret].
  destruct (truthy (get "visibility" items)) eqn:Htrue;
    [destruct (in_strings (get "visibility" items) VISIBILITIES) eqn:Hin|];
    cbn [negb andb ret raise].
  - right. exists items. auto.
  - left. eexists. reflexivity.
  - right. exists items. auto.
Qed.

Lemma get_search_cases send params st :
  (exists msg, get_search send params st = (Raised (ValueError msg), st))
  \/ (exists items,
        params = PDict items
        /\ dict_contains "q" items = true
        /\ get_search send params st
           = execute send "GET" "https://urlscan.io/api/v1/search/" PNone params st).
Proof.
  destruct params; try (left; eexists; reflexivity).
  unfold get_search, raise_if, bind.
  destruct (dict_contains "q" items) eqn:Hq; [|left; eexists; reflexivity].
  right. exists items. auto.
Qed.

(** X6. [post_scan] refuses a dict without the key ['url'], the empty dict
    included, with [ValueError('Payload must contain a URL to scan')], whatever
    else the dict holds; nothing is sent. *)
Theorem post_scan_requires_url send items st :
  dict_contains "url" items = false ->
  post_scan send (PDict items) st
  = (Raised (ValueError "Payload must contain a URL to scan"), st).
Proof.
  intros Hurl. unfold post_scan, raise_if, bind. rewrite Hurl. reflexivity.
Qed.

Lemma post_scan_requires_url_witness :
  post_scan (through (always 200)) (PDict []) bob
  = (Raised (ValueError "Payload must contain a URL to scan"), bob)
  /\ post_scan (through (always 200))
       (PDict [(KStr "URL", PStr "http://example.com"); (KStr "visibility", PStr "secret")]) bob
     = (Raised (ValueError "Payload must contain a URL to scan"), bob).
Proof.
  split.
  - apply (post_scan_requires_url (through (always 200)) [] bob). reflexivity.
  - apply (post_scan_requires_url (through (always 200))
             [(KStr "URL", PStr "http://example.com"); (KStr "visibility", PStr "secret")] bob).
    reflexivity.
Defined.

(** X7. Whatever [post_scan] sends is a POST to the scan endpoint, with the
    headers of the client and no params, whose data is the JSON text of the
    payload; and the payload was then a dict holding ['url'] whose visibility
    is falsy or one of [VISIBILITIES]. *)
Theorem post_scan_requests send payload st r :
  In r (requests_of (new_events st (snd (post_scan send payload st)))) ->
  req_method r = "POST"
  /\ req_url r = "https://urlscan.io/api/v1/scan/"
  /\ req_headers r = headers (self st)
  /\ req_params r = PNone
  /\ exists items text,
       payload = PDict items
       /\ dict_contains "url" items = true
       /\ (truthy (get "visibility" items) = false
           \/ in_strings (get "visibility" items) VISIBILITIES = true)
       /\ json_dumps payload = Dumped text
       /\ req_data r = PStr text.
Proof.
  destruct (post_scan_cases send payload st)
    as [(msg & ->) | (items & -> & Hurl & Hvis & ->)].
  - cbn [snd]. rewrite new_events_same. intros [].
  - intros Hin.
    destruct (execute_request_fields _ _ _ _ _ _ _ Hin) as (Hm & Hu & Hh & Hp & Hchecks).
    repeat (split; [assumption|]).
    destruct items as [|kv rest]; [discriminate Hurl|].
    unfold checks in Hchecks. cbn [truthy type_is_dict negb andb] in Hchecks.
    destruct (json_dumps (PDict (kv :: rest))) as [text|msg|msg|msg] eqn:Hdumps;
      try discriminate Hchecks.
    injection Hchecks as Hdata.
    exists (kv :: rest), text. auto.
Qed.

Lemma post_scan_requests_witness :
  let payload := PDict [(KStr "url", PStr "http://example.com");
                        (KStr "visibility", PStr "unlisted")] in
  let r := {| req_method := "POST"; req_url := "https://urlscan.io/api/v1/scan/";
              req_headers := headers (self bob);
              req_data := PStr ("{" +:+ encode_str "url" +:+ ": "
                                +:+ encode_str "http://example.com" +:+ ", "
                                +:+ encode_str "visibility" +:+ ": "
                                +:+ encode_str "unlisted" +:+ "}");
              req_params := PNone |} in
  req_method r = "POST" /\ req_url r = "https://urlscan.io/api/v1/scan/"
  /\ req_headers r = headers (self bob) /\ req_params r = PNone.
Proof.
  intros payload r.
  destruct (post_scan_requests (through (always 200)) payload bob r)
    as (Hm & Hu & Hh & Hp & _).
  - vm_compute. left. reflexivity.
  - auto.
Defined.

(** X8. For a dict that holds ['q'], [get_search] issues one GET to the search
    endpoint with that dict, as it is, as params, and with no data, hence no
    body; an answer is returned as it is. *)
Theorem get_search_sends send items st :
  dict_contains "q" items = true ->
  let request := {| req_method := "GET"; req_url := "https://urlscan.io/api/v1/search/";
                    req_headers := headers (self st);
                    req_data := PNone; req_params := PDict items |} in
  let run := get_search send (PDict items) st in
  requests_of (new_events st (snd run)) = [request]
  /\ wire_body (req_data request) = None
  /\ fst run = match send (session (self st)) request with
               | Responded response => Returned (Some response)
               | Failed e => if is_RequestException e then Returned None else Raised e
               end.
Proof.
  intros Hq request run.
  assert (Hrun : run = perform send request st).
  { subst run. unfold get_search, raise_if, bind. rewrite Hq. cbn [negb ret].
    rewrite execute_steps. unfold checks. cbn [type_is_dict negb].
    rewrite andb_false_r. reflexivity. }
  rewrite Hrun. split; [|split; [reflexivity|]].
  - destruct (perform_run send request st) as (t & -> & Hreq & _).
    rewrite new_events_app. exact Hreq.
  - unfold perform. destruct (send (session (self st)) request) as [resp|e];
      [reflexivity|]. destruct (is_RequestException e); reflexivity.
Qed.

Lemma get_search_sends_witness :
  let run := get_search (through (always 200))
               (PDict [(KStr "q", PStr "domain:example.com"); (KStr "size", PInt 10)]) bob in
  map req_params (requests_of (new_events bob (snd run)))
  = [PDict [(KStr "q", PStr "domain:example.com"); (KStr "size", PInt 10)]]
  /\ fst run = Returned (Some (mkResponse 200 None "")).
Proof.
  intros run.
  destruct (get_search_sends (through (always 200))
              [(KStr "q", PStr "domain:example.com"); (KStr "size", PInt 10)] bob)
    as (Hreq & _ & Hres).
  - reflexivity.
  - subst run. rewrite Hreq, Hres. split; reflexivity.
Defined.

(** X9. [get_quotas], [get_screenshot], [get_dom], [get_response] and
    [get_scan_countries] check nothing: each issues one GET with the headers of
    the client, no data and no params, to its own URL, made by appending the
    identifier, whatever it is, to the base URL; an answer of any status is
    returned as it is. *)
Theorem plain_getters send result_uuid response_sha256 st :
  Forall (fun '(getter, url) =>
            let request := {| req_method := "GET"; req_url := url;
                              req_headers := headers (self st);
                              req_data := PNone; req_params := PNone |} in
            requests_of (new_events st (snd (getter st))) = [request]
            /\ fst (getter st)
               = match send (session (self st)) request with
                 | Responded response => Returned (Some response)
                 | Failed e => if is_RequestException e then Returned None else Raised e
                 end)
    [(get_quotas send, "https://urlscan.io/user/quotas/");
     (get_screenshot send result_uuid, "https://urlscan.io/screenshots/" +:+ result_uuid);
     (get_dom send result_uuid, "https://urlscan.io/dom/" +:+ result_uuid);
     (get_response send response_sha256, "https://urlscan.io/responses/" +:+ response_sha256);
     (get_scan_countries send, "https://urlscan.io/api/v1/availableCountries/")].
Proof.
  assert (Hget : forall url,
    let request := {| req_method := "GET"; req_url := url; req_headers := headers (self st);
                      req_data := PNone; req_params := PNone |} in
    requests_of (new_events st (snd (execute send "GET" url PNone PNone st))) = [request]
    /\ fst (execute send "GET" url PNone PNone st)
       = match send (session (self st)) request with
         | Responded response => Returned (Some response)
         | Failed e => if is_RequestException e then Returned None else Raised e
         end).
  { intros url request. rewrite execute_steps. cbn [checks truthy andb]. fold request. split.
    - destruct (perform_run send request st) as (t & -> & Hreq & _).
      rewrite new_events_app. exact Hreq.
    - unfold perform. destruct (send (session (self st)) request) as [resp|e];
        [reflexivity|]. destruct (is_RequestException e); reflexivity. }
  repeat constructor.
  - apply (Hget "https://urlscan.io/user/quotas/").
  - apply (Hget "https://urlscan.io/user/quotas/").
  - apply (Hget ("https://urlscan.io/screenshots/" +:+ result_uuid)).
  - apply (Hget ("https://urlscan.io/screenshots/" +:+ result_uuid)).
  - apply (Hget ("https://urlscan.io/dom/" +:+ result_uuid)).
  - apply (Hget ("https://urlscan.io/dom/" +:+ result_uuid)).
  - apply (Hget ("https://urlscan.io/responses/" +:+ response_sha256)).
  - apply (Hget ("https://urlscan.io/responses/" +:+ response_sha256)).
  - apply (Hget "https://urlscan.io/api/v1/availableCountries/").
  - apply (Hget "https://urlscan.io/api/v1/availableCountries/").
Qed.

(** X10. No public method changes the client or rewrites the trace: after
    any call the headers and the session are what they were, the earlier
    events are still there, at most one request was issued, and the session
    was closed as many times as requests were issued. *)
Theorem operations_keep_client send c st :
  self (snd (run send c st)) = self st
  /\ exists t,
       trace (snd (run send c st)) = trace st ++ t
       /\ (length (requests_of t) <= 1)%nat
       /\ closes_of t = length (requests_of t)
       /\ creations_of t = 0%nat.
Proof.
  assert (Hexec : forall method url payload params,
    self (snd (execute send method url payload params st)) = self st
    /\ exists t,
         trace (snd (execute send method url payload params st)) = trace st ++ t
         /\ (length (requests_of t) <= 1)%nat
         /\ closes_of t = length (requests_of t)
         /\ creations_of t = 0%nat).
  { intros method url payload params. split; [apply execute_keeps_self|].
    destruct (execute_trace send method url payload params st)
      as (t & Htrace & Hnew & Hclose & Hone & _).
    exists t. auto. }
  assert (Hraise : forall e : exception,
    self st = self st
    /\ exists t, trace st = trace st ++ t
         /\ (length (requests_of t) <= 1)%nat
         /\ closes_of t = length (requests_of t)
         /\ creations_of t = 0%nat).
  { intros _. split; [reflexivity|]. exists []. rewrite app_nil_r. cbn. auto. }
  destruct c; cbn [run]; try apply Hexec.
  - destruct (post_scan_cases send payload st) as [(msg & ->) | (items & _ & _ & _ & ->)];
      [apply (Hraise (ValueError msg))|apply Hexec].
  - destruct (get_search_cases send params st) as [(msg & ->) | (items & _ & _ & ->)];
      [apply (Hraise (ValueError msg))|apply Hexec].
Qed.

(** X11. Every request a public method issues goes to a URL that starts with
    [https://], so in the session of a client it is served by the adapter that
    carries the retry policy, never by a default one. *)
Theorem operations_use_https send c st r :
  In r (requests_of (new_events st (snd (run send c st)))) ->
  String.prefix "https://" (req_url r) = true
  /\ forall retries backoff,
       get_adapter (urlscan_session retries backoff) (req_url r)
       = Some (mkHTTPAdapter (new_Retry retries backoff STATUSES)).
Proof.
  intros Hin.
  assert (Hurl : exists rest, req_url r = "https://urlscan.io/" +:+ rest).
  { destruct c; cbn [run] in Hin.
    - apply execute_request_fields in Hin as (_ & -> & _). eexists. reflexivity.
    - apply execute_request_fields in Hin as (_ & -> & _). eexists. reflexivity.
    - apply execute_request_fields in Hin as (_ & -> & _). eexists. reflexivity.
    - apply execute_request_fields in Hin as (_ & -> & _). eexists. reflexivity.
    - apply execute_request_fields in Hin as (_ & -> & _). eexists. reflexivity.
    - apply execute_request_fields in Hin as (_ & -> & _). eexists. reflexivity.
    - destruct (post_scan_cases send payload st)
        as [(msg & Hrun) | (items & _ & _ & _ & Hrun)]; rewrite Hrun in Hin.
      + cbn [snd] in Hin. rewrite new_events_same in Hin. destruct Hin.
      + apply execute_request_fields in Hin as (_ & -> & _). eexists. reflexivity.
    - destruct (get_search_cases send params st)
        as [(msg & Hrun) | (items & _ & _ & Hrun)]; rewrite Hrun in Hin.
      + cbn [snd] in Hin. rewrite new_events_same in Hin. destruct Hin.
      + apply execute_request_fields in Hin as (_ & -> & _). eexists. reflexivity. }
  destruct Hurl as (rest & ->). split; [reflexivity|].
  intros retries backoff. apply get_adapter_https. reflexivity.
Qed.

Lemma operations_use_https_witness :
  get_adapter (urlscan_session 2 1) "https://urlscan.io/dom/abc-123"
  = Some (mkHTTPAdapter (new_Retry 2 1 STATUSES)).
Proof.
  destruct (operations_use_https (through (always 200)) (GetDom "abc-123") bob
              {| req_method := "GET"; req_url := "https://urlscan.io/dom/abc-123";
                 req_headers := headers (self bob); req_data := PNone;
                 req_params := PNone |}) as [_ Hadapter].
  - vm_compute. left. reflexivity.
  - apply Hadapter.
Defined.

(** X12. [urlscan_session] mounts its adapter on [https://] only. A URL that
    starts with [http://] is served by the default adapter of the session:
    one attempt, no retry, whatever the retry count and whatever the server
    answers. *)
Theorem http_is_not_retried retries backoff server method url :
  String.prefix "http://" (lower url) = true ->
  get_adapter (urlscan_session retries backoff) url = Some default_HTTPAdapter
  /\ attempts (session_request (urlscan_session retries backoff) server method url) = 1%nat.
Proof.
  intros Hhttp.
  assert (Hadapter :
    get_adapter (urlscan_session retries backoff) url = Some default_HTTPAdapter).
  { unfold get_adapter. rewrite urlscan_session_adapters. cbn [find_adapter].
    change (lower "https://") with "https://". change (lower "http://") with "http://".
    rewrite Hhttp.
    destruct (lower url) as [|c1 [|c2 [|c3 [|c4 [|c5 rest]]]]];
      cbn [String.prefix] in Hhttp |- *;
      repeat match type of Hhttp with
             | context [ascii_dec ?a ?b] => destruct (ascii_dec a b) as [<-|]
             end;
      try discriminate Hhttp; try reflexivity.
  }
  split; [exact Hadapter|].
  unfold session_request. rewrite Hadapter.
  unfold urlopen. cbn [max_retries default_HTTPAdapter total urlopen_from].
  repeat case_match; reflexivity.
Qed.

Lemma http_is_not_retried_witness :
  attempts (session_request (urlscan_session 5 1) (always 503) "GET"
              "http://urlscan.io/user/quotas/") = 1%nat.
Proof.
  apply (http_is_not_retried 5 1 (always 503) "GET" "http://urlscan.io/user/quotas/").
  reflexivity.
Defined.

(** ** The client on the wire *)








(** ** Which payloads [json.dumps] takes *)

Lemma encode_items_cons (room : N) k x rest :
  encode_items room ((k, x) :: rest)
  = match encode_key k with
    | Dumped kt =>
        match json_encode room x with
        | Dumped t =>
            match encode_items room rest with
            | Dumped ts => Dumped (join2 (kt +:+ ": " +:+ t) ts)
            | err => err
            end
        | err => err
        end
    | err => err
    end.
Proof. reflexivity. Qed.







(** X16. When the entries before it encode, and its key does, the first
    entry of the payload whose value is an object of a class [json.dumps] has
    no rule for makes [execute] raise [UrlscanInvalidPayload] with a message
    that names the class; nothing is sent, and the params are not looked at. *)
Theorem execute_rejects_foreign_value
    send method url before text k key_text cls truth after params st :
  json_dumps (PDict before) = Dumped text ->
  encode_key k = Dumped key_text ->
  execute send method url (PDict (before ++ (k, PObj cls truth) :: after)) params st
  = (Raised (UrlscanInvalidPayload
               ("Failed to convert payload to JSON: Object of type " +:+ cls
                +:+ " is not JSON serializable")), st).
Proof.
  intros Hbefore Hk.
  rewrite json_dumps_dict in Hbefore.
  set (room := N.pred RECURSION_LIMIT) in *.
  destruct (encode_items room before) as [body|msg|msg|msg] eqn:Hbody;
    try discriminate Hbefore.
  clear Hbefore.
  assert (Hitems : encode_items room (before ++ (k, PObj cls truth) :: after)
                   = DumpsTypeError ("Object of type " +:+ cls
                                     +:+ " is not JSON serializable")).
  { revert body Hbody. induction before as [|[k0 x0] rest IHrest]; intros body Hbody.
    - cbn [app]. rewrite encode_items_cons, Hk. reflexivity.
    - cbn [app]. rewrite encode_items_cons in Hbody |- *.
      destruct (encode_key k0) as [kt|msg|msg|msg]; try discriminate Hbody.
      destruct (json_encode room x0) as [t|msg|msg|msg]; try discriminate Hbody.
      destruct (encode_items room rest) as [ts|msg|msg|msg] eqn:Hrest;
        try discriminate Hbody.
      rewrite (IHrest ts eq_refl). reflexivity. }
  rewrite execute_steps. unfold checks.
  rewrite json_dumps_dict. fold room. rewrite Hitems.
  destruct before; reflexivity.
Qed.

Lemma execute_rejects_foreign_value_witness :
  execute (through (always 200)) "POST" "https://urlscan.io/api/v1/scan/"
    (PDict [(KStr "url", PStr "http://example.com");
            (KStr "tags", PObj "set" true);
            (KStr "self", PLoop 0)]) (PStr "junk") bob
  = (Raised (UrlscanInvalidPayload
               "Failed to convert payload to JSON: Object of type set is not JSON serializable"),
     bob).
Proof.
  apply (execute_rejects_foreign_value (through (always 200)) "POST"
           "https://urlscan.io/api/v1/scan/"
           [(KStr "url", PStr "http://example.com")]
           ("{" +:+ encode_str "url" +:+ ": " +:+ encode_str "http://example.com" +:+ "}")
           (KStr "tags") (encode_str "tags") "set" true
           [(KStr "self", PLoop 0)] (PStr "junk") bob).
  - vm_compute. reflexivity.
  - reflexivity.
Defined.

(** ** Witnesses of the refusals *)

Lemma post_scan_refuses_non_dict_witness :
  post_scan (through (always 200)) PNone bob
  = (Raised (ValueError "Payload must be a dictionary"), bob)
  /\ post_scan (through (always 200)) (PList []) bob
     = (Raised (ValueError "Payload must be a dictionary"), bob).
Proof.
  split.
  - apply (post_scan_refuses_non_dict (through (always 200)) PNone bob). reflexivity.
  - apply (post_scan_refuses_non_dict (through (always 200)) (PList []) bob). reflexivity.
Defined.

Lemma post_scan_refuses_visibility_witness :
  post_scan (through (always 200))
    (PDict [(KStr "url", PStr "http://example.com"); (KStr "visibility", PStr "Public")]) bob
  = (Raised (ValueError "Visibility must be one of ['public', 'private', 'unlisted']"), bob).
Proof.
  apply (post_scan_refuses_visibility (through (always 200))
           [(KStr "url", PStr "http://example.com"); (KStr "visibility", PStr "Public")] bob);
    reflexivity.
Defined.

Lemma execute_refuses_truthy_non_dict_witness :
  execute (through (always 200)) "POST" "https://urlscan.io/api/v1/scan/"
    (PList [PStr "http://example.com"]) (PInt 7) bob
  = (Raised (ValueError "Payload must be a dictionary"), bob).
Proof.
  apply (execute_refuses_truthy_non_dict (through (always 200)) "POST"
           "https://urlscan.io/api/v1/scan/" (PList [PStr "http://example.com"]) (PInt 7) bob);
    reflexivity.
Defined.

(** ** The headers on the wire *)

Lemma run_request_headers send c st r :
  In r (requests_of (new_events st (snd (run send c st)))) ->
  req_headers r = headers (self st).
Proof.
  intros Hin. destruct c; cbn [run] in Hin;
    try (apply execute_request_fields in Hin as (_ & _ & Hheaders & _); exact Hheaders).
  - destruct (post_scan_cases send payload st)
      as [(msg & Hrun) | (items & _ & _ & _ & Hrun)]; rewrite Hrun in Hin.
    + cbn [snd] in Hin. rewrite new_events_same in Hin. destruct Hin.
    + apply execute_request_fields in Hin as (_ & _ & Hheaders & _). exact Hheaders.
  - destruct (get_search_cases send params st)
      as [(msg & Hrun) | (items & _ & _ & Hrun)]; rewrite Hrun in Hin.
    + cbn [snd] in Hin. rewrite new_events_same in Hin. destruct Hin.
    + apply execute_request_fields in Hin as (_ & _ & Hheaders & _). exact Hheaders.
Qed.

(** X20. Whatever request a public method issues on a client fresh from the
    constructor carries the content type, the user agent given (or
    [BasicUrlscanPy/v1] when none was) and, only when an API key was given,
    that key; a client built without a key never sends an [API-Key] header. *)
Theorem operations_carry_headers api_key user_agent retries backoff before send c r :
  let client := init api_key user_agent retries backoff before in
  In r (requests_of (new_events client (snd (run send c client)))) ->
  req_headers r
  = [("Content-Type", PStr "application/json");
     ("User-Agent", if truthy user_agent then user_agent else PStr "BasicUrlscanPy/v1")]
    ++ (if truthy api_key then [("API-Key", api_key)] else [])
  /\ (truthy api_key = false -> ~ In "API-Key" (map fst (req_headers r))).
Proof.
  intros client Hin.
  assert (Hheaders : req_headers r
    = [("Content-Type", PStr "application/json");
       ("User-Agent", if truthy user_agent then user_agent else PStr "BasicUrlscanPy/v1")]
      ++ (if truthy api_key then [("API-Key", api_key)] else [])).
  { rewrite (run_request_headers send c client r Hin). subst client. unfold init.
    destruct (truthy api_key), (truthy user_agent); reflexivity. }
  split; [exact Hheaders|].
  intros Hnone. rewrite Hheaders, Hnone. cbn.
  intros [H|[H|[]]]; discriminate H.
Qed.

Lemma operations_carry_headers_witness :
  let r := {| req_method := "GET"; req_url := "https://urlscan.io/api/v1/result/abc-123";
              req_headers := [("Content-Type", PStr "application/json");
                              ("User-Agent", PStr "BasicUrlscanPy/v1")];
              req_data := PNone; req_params := PNone |} in
  ~ In "API-Key" (map fst (req_headers r)).
Proof.
  intros r.
  destruct (operations_carry_headers PNone PNone 5 1 [] (through (always 200))
              (GetResult "abc-123") r) as [_ Hnokey].
  - vm_compute. left. reflexivity.
  - apply Hnokey. reflexivity.
Defined.
